(** * The chat context store (ChatProvider / useChat)

    A shallow embedding of the React context module that keeps the message
    timeline, the cached conversation list, the current conversation id and
    the loading flag, together with the properties its specification states.

    The module is written in TypeScript but walks server responses through
    values typed [any], so the embedding keeps JavaScript values untyped
    where the source does.  Asynchronous functions are embedded as
    computations over the hook state; every [await] takes, as an argument,
    what happened while the call was suspended and how the awaited promise
    settled. *)

From Stdlib Require Import List String ZArith Bool Lia.
From Stdlib Require Import DecimalString DecimalZ.
Import ListNotations.
Open Scope string_scope.

#[local] Set Warnings "-register-all".

(* ------------------------------------------------------------------ *)
(** ** JavaScript values and completions                              *)
(* ------------------------------------------------------------------ *)

Module Js.

(** What [response.json()] can produce, plus [undefined], which property
    reads produce.  An object is its table of own properties.  The module
    never computes with a parsed number, it only copies it; integral ones
    are enough here. *)
Inductive Value : Type :=
| Undefined
| Null
| Bool (b : bool)
| Num (n : Z)
| Str (s : string)
| Arr (items : list Value)
| Obj (props : list (string * Value)).

Inductive Exn : Type :=
| NetworkError            (* fetch rejected *)
| SyntaxError             (* response.json() rejected *)
| TypeError
| Error (message : string).

(** A completion is either a thrown exception or a normal value. *)
Definition Completion (A : Type) : Type := (Exn + A)%type.

Definition throw {A : Type} (e : Exn) : Completion A := inl e.
Definition ret {A : Type} (a : A) : Completion A := inr a.

Definition bind {A B : Type} (c : Completion A) (k : A -> Completion B)
  : Completion B :=
  match c with
  | inl e => inl e
  | inr a => k a
  end.

Fixpoint lookup (name : string) (props : list (string * Value)) : Value :=
  match props with
  | [] => Undefined
  | (key, v) :: rest => if String.eqb key name then v else lookup name rest
  end.

Fixpoint hasOwn (name : string) (props : list (string * Value)) : bool :=
  match props with
  | [] => false
  | (key, _) :: rest => String.eqb key name || hasOwn name rest
  end.

(** [v.name] for the property names this module reads ([messages], [id],
    [text], [sender], [timestamp]); none of them is defined on a built-in
    prototype, so on anything but an object with that own property the
    read gives [undefined], and on [null] or [undefined] it throws. *)
Definition get (v : Value) (name : string) : Completion Value :=
  match v with
  | Undefined | Null => throw TypeError
  | Obj props => ret (lookup name props)
  | Bool _ | Num _ | Str _ | Arr _ => ret Undefined
  end.

(** [items.map(f)], elements in order; the first exception ends the walk. *)
Fixpoint mapM {A B : Type} (f : A -> Completion B) (items : list A)
  : Completion (list B) :=
  match items with
  | [] => ret []
  | x :: rest =>
      bind (f x) (fun y => bind (mapM f rest) (fun ys => ret (y :: ys)))
  end.

(** [v.map(f)]: only arrays have a callable [map]. *)
Definition map {B : Type} (v : Value) (f : Value -> Completion B)
  : Completion (list B) :=
  match v with
  | Arr items => mapM f items
  | Undefined | Null | Bool _ | Num _ | Str _ | Obj _ => throw TypeError
  end.

(** Conversion to a primitive throws on an object whose own [toString]
    property shadows the inherited method (parsed data is never callable),
    and on an array whose [join] meets such an object. *)
Fixpoint unprintable (v : Value) : bool :=
  match v with
  | Obj props => hasOwn "toString" props
  | Arr items => existsb unprintable items
  | Undefined | Null | Bool _ | Num _ | Str _ => false
  end.

(** [n.toString()] on an integral number. *)
Definition toString (n : Z) : string := NilEmpty.string_of_int (Z.to_int n).

End Js.

(** A [Date] object.  Which instant a wire value denotes is decided by the
    engine's date parser; a date built from a wire value is kept as that
    construction. *)
Inductive Date : Type :=
| DateAt (ms : Z)            (* [new Date()] at clock reading [ms] *)
| DateOf (v : Js.Value).     (* [new Date(v)] *)

Definition newDate (v : Js.Value) : Js.Completion Date :=
  if Js.unprintable v then Js.throw Js.TypeError else Js.ret (DateOf v).

(* ------------------------------------------------------------------ *)
(** ** Data model                                                     *)
(* ------------------------------------------------------------------ *)

Inductive Sender : Type := user | bot.

Definition senderTag (s : Sender) : string :=
  match s with
  | user => "user"
  | bot => "bot"
  end.

(** [interface Message].  Loaded messages come out of an [any]-typed walk,
    so at run time the three scalar fields hold whatever the body held. *)
Module Message.
Record t : Type := make
  { id : Js.Value;
    text : Js.Value;
    sender : Js.Value;
    timestamp : Date }.
End Message.

(** [interface Conversation]. *)
Module Conversation.
Record t : Type := make
  { id : string;
    agent_name : string;
    title : string;
    created_at : string;
    updated_at : string;
    message_count : Z }.
End Conversation.

(** The four [useState] cells of [ChatProvider]. *)
Module State.
Record t : Type := make
  { messages : list Message.t;
    conversations : list Conversation.t;
    currentConversationId : option string;
    isLoading : bool }.

(** The initial values passed to [useState]. *)
Definition initial : t := make [] [] None false.
End State.

(* ------------------------------------------------------------------ *)
(** ** Effects                                                        *)
(* ------------------------------------------------------------------ *)

Record Request : Type :=
  { method : string;
    url : string }.

(** Everything a call can affect: the hook state, the console, the
    requests sent, and the hook state as it stood each time the call
    suspended or resumed. *)
Record World : Type :=
  { store : State.t;
    console : list (string * Js.Exn);
    network : list Request;
    observed : list State.t }.

Definition boot (st : State.t) : World :=
  {| store := st; console := []; network := []; observed := [] |}.

Definition Proc (A : Type) : Type := World -> Js.Completion A * World.

Definition pure {A : Type} (a : A) : Proc A := fun w => (Js.ret a, w).

Definition lift {A : Type} (c : Js.Completion A) : Proc A := fun w => (c, w).

Definition andThen {A B : Type} (p : Proc A) (k : A -> Proc B) : Proc B :=
  fun w =>
    match p w with
    | (inl e, w') => (inl e, w')
    | (inr a, w') => k a w'
    end.

Declare Scope proc_scope.
Delimit Scope proc_scope with proc.
Notation "x <- p ;; k" := (andThen p (fun x => k))
  (at level 61, p at next level, right associativity) : proc_scope.
Notation "p ;; k" := (andThen p (fun _ => k))
  (at level 61, right associativity) : proc_scope.
Open Scope proc_scope.

(** [try { body } catch (error) { handler }] *)
Definition try_catch (body : Proc unit) (handler : Js.Exn -> Proc unit)
  : Proc unit :=
  fun w =>
    match body w with
    | (inl error, w') => handler error w'
    | (inr tt, w') => (Js.ret tt, w')
    end.

(** [try { body } catch (error) { handler } finally { finalizer }] *)
Definition try_catch_finally (body : Proc unit) (handler : Js.Exn -> Proc unit)
  (finalizer : Proc unit) : Proc unit :=
  fun w =>
    match try_catch body handler w with
    | (outcome, w') =>
        match finalizer w' with
        | (inl e, w'') => (inl e, w'')
        | (inr tt, w'') => (outcome, w'')
        end
    end.

Definition modify (f : State.t -> State.t) : Proc unit :=
  fun w =>
    (Js.ret tt,
     {| store := f (store w); console := console w;
        network := network w; observed := observed w |}).

(** [console.error(label, error)] *)
Definition console_error (label : string) (error : Js.Exn) : Proc unit :=
  fun w =>
    (Js.ret tt,
     {| store := store w; console := console w ++ [(label, error)];
        network := network w; observed := observed w |}).

(** The argument of a state setter: a value or an updater of the previous
    value. *)
Inductive SetStateAction (S : Type) : Type :=
| Value (v : S)
| Updater (f : S -> S).
Arguments Value {S} v.
Arguments Updater {S} f.

Definition resolve {S : Type} (action : SetStateAction S) (prev : S) : S :=
  match action with
  | Value v => v
  | Updater f => f prev
  end.

Definition setMessages (action : SetStateAction (list Message.t)) : Proc unit :=
  modify (fun st =>
    State.make (resolve action (State.messages st)) (State.conversations st)
               (State.currentConversationId st) (State.isLoading st)).

Definition setConversations (action : SetStateAction (list Conversation.t))
  : Proc unit :=
  modify (fun st =>
    State.make (State.messages st) (resolve action (State.conversations st))
               (State.currentConversationId st) (State.isLoading st)).

Definition setCurrentConversationId (action : SetStateAction (option string))
  : Proc unit :=
  modify (fun st =>
    State.make (State.messages st) (State.conversations st)
               (resolve action (State.currentConversationId st))
               (State.isLoading st)).

Definition setIsLoading (action : SetStateAction bool) : Proc unit :=
  modify (fun st =>
    State.make (State.messages st) (State.conversations st)
               (State.currentConversationId st)
               (resolve action (State.isLoading st))).

(** A promise seen from the awaiting call: what other handlers did to the
    hook state while the call was suspended, and how the promise settled. *)
Record Pending (A : Type) : Type :=
  { meanwhile : State.t -> State.t;
    settles : Js.Completion A }.
Arguments meanwhile {A} p st.
Arguments settles {A} p.

(** A promise nothing else runs during. *)
Definition alone {A : Type} (c : Js.Completion A) : Pending A :=
  {| meanwhile := fun st => st; settles := c |}.

(** [await promise]: the call suspends, the other handlers run, the call
    resumes with the promise's completion. *)
Definition await {A : Type} (promise : Pending A) : Proc A :=
  fun w =>
    let suspended := store w in
    let resumed := meanwhile promise suspended in
    (settles promise,
     {| store := resumed; console := console w; network := network w;
        observed := observed w ++ [suspended; resumed] |}).

(** A [Response] whose body reads as a [B]. *)
Record Response (B : Type) : Type :=
  { ok : bool;
    json : Pending B }.
Arguments ok {B} r.
Arguments json {B} r.

(** [fetch(url, { method })]: sends the request and hands back the promise
    of its response. *)
Definition fetch {B : Type} (request : Request) (reply : Pending (Response B))
  : Proc (Pending (Response B)) :=
  fun w =>
    (Js.ret reply,
     {| store := store w; console := console w;
        network := network w ++ [request]; observed := observed w |}).

Definition GET (path : string) : Request := {| method := "GET"; url := path |}.
Definition DELETE (path : string) : Request :=
  {| method := "DELETE"; url := path |}.

(** Running a call from a given hook state. *)
Definition exec (call : Proc unit) (st : State.t) : World :=
  snd (call (boot st)).

Definition run (call : Proc unit) (st : State.t) : State.t :=
  store (exec call st).

(* ------------------------------------------------------------------ *)
(** ** The context value                                              *)
(* ------------------------------------------------------------------ *)

(** [interface ChatContextType].  The clock readings and the replies of the
    remote store are arguments of the operations that consume them. *)
Module ChatContextType.
Record t : Type := make
  { messages : list Message.t;
    conversations : list Conversation.t;
    currentConversationId : option string;
    addMessage : Z -> Z -> string -> Sender -> Proc unit;
    clearMessages : Proc unit;
    loadConversation : string -> Pending (Response Js.Value) -> Proc unit;
    loadAgentConversations :
      string -> Pending (Response (list Conversation.t)) -> Proc unit;
    createNewConversation : Proc unit;
    deleteConversation : string -> Pending (Response Js.Value) -> Proc unit;
    isLoading : bool;
    setIsLoading : bool -> Proc unit }.
End ChatContextType.

(** [currentConversationId === conversationId] on [string | null]. *)
Definition strictEq (current : option string) (conversationId : string) : bool :=
  match current with
  | Some id => String.eqb id conversationId
  | None => false
  end.

(** The callback of [history.messages.map]: the object literal's fields are
    evaluated in order. *)
Definition remapMessage (msg : Js.Value) : Js.Completion Message.t :=
  Js.bind (Js.get msg "id") (fun id =>
  Js.bind (Js.get msg "text") (fun text =>
  Js.bind (Js.get msg "sender") (fun sender =>
  Js.bind (Js.get msg "timestamp") (fun stamp =>
  Js.bind (newDate stamp) (fun timestamp =>
  Js.ret (Message.make id text sender timestamp)))))).

Module ChatProvider.

Section Render.

(** The hook state of the render that created the closures. *)
Variable rendered : State.t.

(** [now] is the reading of [Date.now()], [today] that of [new Date()]. *)
Definition addMessage (now today : Z) (text : string) (sender : Sender)
  : Proc unit :=
  let newMessage :=
    Message.make (Js.Str (Js.toString now)) (Js.Str text)
                 (Js.Str (senderTag sender)) (DateAt today) in
  setMessages (Updater (fun prev => (prev ++ [newMessage])%list)).

Definition clearMessages : Proc unit :=
  setMessages (Value []) ;;
  setCurrentConversationId (Value None).

Definition createNewConversation : Proc unit :=
  setMessages (Value []) ;;
  setCurrentConversationId (Value None).

Definition loadConversation (conversationId : string)
  (reply : Pending (Response Js.Value)) : Proc unit :=
  try_catch_finally
    (setIsLoading (Value true) ;;
     promise <- fetch (GET ("/api/conversations/" ++ conversationId)) reply ;;
     response <- await promise ;;
     (if ok response then
        history <- await (json response) ;;
        messages <- lift (Js.get history "messages") ;;
        loadedMessages <- lift (Js.map messages remapMessage) ;;
        setMessages (Value loadedMessages) ;;
        setCurrentConversationId (Value (Some conversationId))
      else pure tt))
    (fun error => console_error "Error loading conversation:" error)
    (setIsLoading (Value false)).

Definition loadAgentConversations (agentName : string)
  (reply : Pending (Response (list Conversation.t))) : Proc unit :=
  try_catch
    (promise <-
       fetch (GET ("/api/agents/" ++ agentName ++ "/conversations")) reply ;;
     response <- await promise ;;
     (if ok response then
        agentConversations <- await (json response) ;;
        setConversations (Value agentConversations)
      else pure tt))
    (fun error => console_error "Error loading agent conversations:" error).

Definition deleteConversation (conversationId : string)
  (reply : Pending (Response Js.Value)) : Proc unit :=
  try_catch
    (promise <-
       fetch (DELETE ("/api/conversations/" ++ conversationId)) reply ;;
     response <- await promise ;;
     (if ok response then
        setConversations
          (Updater (filter (fun conv =>
             negb (String.eqb (Conversation.id conv) conversationId)))) ;;
        (if strictEq (State.currentConversationId rendered) conversationId
         then clearMessages
         else pure tt)
      else pure tt))
    (fun error => console_error "Error deleting conversation:" error).

(** The [value] handed to [ChatContext.Provider]. *)
Definition value : ChatContextType.t :=
  ChatContextType.make
    (State.messages rendered)
    (State.conversations rendered)
    (State.currentConversationId rendered)
    addMessage
    clearMessages
    loadConversation
    loadAgentConversations
    createNewConversation
    deleteConversation
    (State.isLoading rendered)
    (fun loading => setIsLoading (Value loading)).

End Render.

End ChatProvider.

(** [createContext<ChatContextType | undefined>(undefined)]: a context is
    its default value; [useContext] gives the value of the nearest enclosing
    provider, innermost first, and the default when there is none. *)
Record Context (A : Type) : Type := createContext { defaultValue : A }.
Arguments createContext {A} defaultValue.
Arguments defaultValue {A} c.

Definition useContext {A : Type} (context : Context A) (providers : list A) : A :=
  match providers with
  | [] => defaultValue context
  | nearest :: _ => nearest
  end.

Definition ChatContext : Context (option ChatContextType.t) :=
  createContext None.

Definition useChat (providers : list (option ChatContextType.t))
  : Js.Completion ChatContextType.t :=
  match useContext ChatContext providers with
  | None => Js.throw (Js.Error "useChat must be used within a ChatProvider")
  | Some context => Js.ret context
  end.

(** A component tree position under one [<ChatProvider>] render. *)
Definition underProvider (rendered : State.t) : list (option ChatContextType.t) :=
  [Some (ChatProvider.value rendered)].

(* ------------------------------------------------------------------ *)
(** ** Calls and replies                                              *)
(* ------------------------------------------------------------------ *)

(** A consumer obtains the operations from the context value of the render
    it sees and invokes one of them. *)
Definition perform (operation : ChatContextType.t -> Proc unit) (st : State.t)
  : World :=
  exec (operation (ChatProvider.value st)) st.

Definition after (operation : ChatContextType.t -> Proc unit) (st : State.t)
  : State.t :=
  store (perform operation st).

(** How one exchange with the remote store went: the fetch rejected, or a
    response arrived with its [ok] flag and the completion of reading its
    body. *)
Definition Outcome (B : Type) : Type := Js.Completion (bool * Js.Completion B).

Definition respond {B : Type} (status : bool) (body : Js.Completion B)
  : Response B :=
  {| ok := status; json := alone body |}.

(** The reply that carries an outcome when no other handler runs while the
    call is suspended. *)
Definition undisturbed {B : Type} (outcome : Outcome B) : Pending (Response B) :=
  alone (match outcome with
         | inl e => Js.throw e
         | inr (status, body) => Js.ret (respond status body)
         end).

(** Other handlers that leave the loading flag alone. *)
Definition keepsLoading (others : State.t -> State.t) : Prop :=
  forall st, State.isLoading (others st) = State.isLoading st.

Definition quiet {B : Type} (reply : Pending (Response B)) : Prop :=
  keepsLoading (meanwhile reply) /\
  forall response, settles reply = inr response ->
                   keepsLoading (meanwhile (json response)).

(** Modelled from the spec: the body of [GET /api/conversations/{id}],
    [{messages: [{id, text, sender, timestamp}, ...]}], which the source
    reads as [any] without declaring it.  The timestamp travels as a
    string. *)
Module RemoteMessage.
Record t : Type := make
  { id : Js.Value;
    text : Js.Value;
    sender : Js.Value;
    timestamp : string }.

Definition toJson (msg : t) : Js.Value :=
  Js.Obj [("id", id msg); ("text", text msg); ("sender", sender msg);
          ("timestamp", Js.Str (timestamp msg))].

(** The internal message a remote one stands for. *)
Definition toMessage (msg : t) : Message.t :=
  Message.make (id msg) (text msg) (sender msg)
               (DateOf (Js.Str (timestamp msg))).
End RemoteMessage.

Definition historyJson (history : list RemoteMessage.t) : Js.Value :=
  Js.Obj [("messages", Js.Arr (List.map RemoteMessage.toJson history))].

(** What [history.messages.map(...)] completes with on a parsed body. *)
Definition remapHistory (history : Js.Value) : Js.Completion (list Message.t) :=
  Js.bind (Js.get history "messages") (fun messages =>
  Js.map messages remapMessage).

(** The ways a [loadConversation] exchange fails. *)
Inductive LoadFailure : Outcome Js.Value -> Prop :=
| transport_error (e : Js.Exn) :
    LoadFailure (inl e)
| non_success_status (body : Js.Completion Js.Value) :
    LoadFailure (inr (false, body))
| unreadable_body (e : Js.Exn) :
    LoadFailure (inr (true, inl e))
| remapping_throws (history : Js.Value) (e : Js.Exn) :
    remapHistory history = inl e ->
    LoadFailure (inr (true, inr history)).

(** One [addMessage] call: the two clock readings it takes and its
    arguments. *)
Record Append : Type :=
  { now : Z;
    today : Z;
    text : string;
    sender : Sender }.

Definition append (st : State.t) (call : Append) : State.t :=
  after (fun context =>
           ChatContextType.addMessage context (now call) (today call)
                                      (text call) (sender call)) st.

Definition appendAll (calls : list Append) (st : State.t) : State.t :=
  fold_left append calls st.

(** The message an [addMessage] call builds. *)
Definition appended (call : Append) : Message.t :=
  Message.make (Js.Str (Js.toString (now call))) (Js.Str (text call))
               (Js.Str (senderTag (sender call))) (DateAt (today call)).

(** A reply during whose two suspensions the other handlers do
    [duringFetch] and [duringBody]. *)
Definition disturbed {B : Type} (duringFetch duringBody : State.t -> State.t)
  (outcome : Outcome B) : Pending (Response B) :=
  {| meanwhile := duringFetch;
     settles := match outcome with
                | inl e => Js.throw e
                | inr (status, body) =>
                    Js.ret {| ok := status;
                              json := {| meanwhile := duringBody;
                                         settles := body |} |}
                end |}.

(** What the remapping callback reads off an element: an own property of an
    object, [undefined] off anything else. *)
Definition field (msg : Js.Value) (name : string) : Js.Value :=
  match msg with
  | Js.Obj props => Js.lookup name props
  | Js.Undefined | Js.Null | Js.Bool _ | Js.Num _ | Js.Str _ | Js.Arr _ =>
      Js.Undefined
  end.

(** The elements the remapping callback does not throw on. *)
Definition remappable (msg : Js.Value) : bool :=
  match msg with
  | Js.Undefined | Js.Null => false
  | Js.Bool _ | Js.Num _ | Js.Str _ | Js.Arr _ | Js.Obj _ =>
      negb (Js.unprintable (field msg "timestamp"))
  end.

Definition remapped (msg : Js.Value) : Message.t :=
  Message.make (field msg "id") (field msg "text") (field msg "sender")
               (DateOf (field msg "timestamp")).

(** Whether a call logged to the console. *)
Definition logged (w : World) : bool :=
  match console w with
  | [] => false
  | _ :: _ => true
  end.

(** A successful [deleteConversation] seen as a step of the hook state. *)
Definition deleted (conversationId : string) (st : State.t) : State.t :=
  after (fun context =>
           ChatContextType.deleteConversation context conversationId
             (undisturbed (inr (true, inr Js.Null)))) st.

(* ------------------------------------------------------------------ *)
(** ** The password reset page                                        *)
(* ------------------------------------------------------------------ *)

(** Truthiness of a value, as [if (v)] and [v && ...] test it. *)
Definition truthy (v : Js.Value) : bool :=
  match v with
  | Js.Undefined | Js.Null => false
  | Js.Bool b => b
  | Js.Num n => negb (Z.eqb n 0)
  | Js.Str s => negb (String.eqb s "")
  | Js.Arr _ | Js.Obj _ => true
  end.

(** [v?.name]: [undefined] on [null] and [undefined], the property read
    otherwise ([data] and [detail] are on no built-in prototype). *)
Definition optionalGet (v : Js.Value) (name : string) : Js.Value :=
  match v with
  | Js.Obj props => Js.lookup name props
  | Js.Undefined | Js.Null | Js.Bool _ | Js.Num _ | Js.Str _ | Js.Arr _ =>
      Js.Undefined
  end.

Module ForgotPasswordPage.

(** The four [useState] cells.  [error] is declared a string but receives
    [error.response.data.detail], which is [any]. *)
Record Form : Type := make
  { email : string;
    loading : bool;
    error : Js.Value;
    success : string }.

Definition initial : Form := make "" false (Js.Str "") "".

(** What [catch (error: any)] can bind: the value the request promise
    rejected with, given by its own properties, or an error raised by the
    engine inside the [try] block. *)
Inductive Caught : Type :=
| Rejection (error : Js.Value)
| Native (e : Js.Exn).

(** The response of a resolved [axios.post]; the handler reads [data]. *)
Record AxiosResponse : Type := { data : Js.Value }.

Record Post : Type :=
  { target : string;
    payload : Js.Value }.

(** What a submission can affect: the form state, the event's default
    action, the requests posted, and the form as rendered while the handler
    was suspended. *)
Record Page : Type :=
  { form : Form;
    defaultPrevented : bool;
    posted : list Post;
    shown : list Form }.

Definition open (f : Form) : Page :=
  {| form := f; defaultPrevented := false; posted := []; shown := [] |}.

Definition Act (A : Type) : Type := Page -> (Caught + A) * Page.

Definition done {A : Type} (a : A) : Act A := fun p => (inr a, p).

(** A property read that may raise. *)
Definition reading {A : Type} (c : Js.Completion A) : Act A :=
  fun p =>
    match c with
    | inl e => (inl (Native e), p)
    | inr a => (inr a, p)
    end.

Definition next {A B : Type} (a : Act A) (k : A -> Act B) : Act B :=
  fun p =>
    match a p with
    | (inl thrown, p') => (inl thrown, p')
    | (inr x, p') => k x p'
    end.

Declare Scope act_scope.
Delimit Scope act_scope with act.
Notation "x <-- a ;;; k" := (next a (fun x => k))
  (at level 61, a at next level, right associativity) : act_scope.
Notation "a ;;; k" := (next a (fun _ => k))
  (at level 61, right associativity) : act_scope.

(** [try { body } catch (error) { handler } finally { finalizer }] *)
Definition guarded (body : Act unit) (handler : Caught -> Act unit)
  (finalizer : Act unit) : Act unit :=
  fun p =>
    match (match body p with
           | (inl thrown, p') => handler thrown p'
           | (inr tt, p') => (inr tt, p')
           end) with
    | (outcome, p') =>
        match finalizer p' with
        | (inl thrown, p'') => (inl thrown, p'')
        | (inr tt, p'') => (outcome, p'')
        end
    end.

Definition update (f : Form -> Form) : Act unit :=
  fun p =>
    (inr tt,
     {| form := f (form p); defaultPrevented := defaultPrevented p;
        posted := posted p; shown := shown p |}).

Definition setEmail (v : string) : Act unit :=
  update (fun f => make v (loading f) (error f) (success f)).

Definition setLoading (v : bool) : Act unit :=
  update (fun f => make (email f) v (error f) (success f)).

Definition setError (v : Js.Value) : Act unit :=
  update (fun f => make (email f) (loading f) v (success f)).

Definition setSuccess (v : string) : Act unit :=
  update (fun f => make (email f) (loading f) (error f) v).

(** [e.preventDefault()] *)
Definition preventDefault : Act unit :=
  fun p =>
    (inr tt,
     {| form := form p; defaultPrevented := true;
        posted := posted p; shown := shown p |}).

(** [await axios.post(url, body)]: the request goes out, the handler is
    suspended with the form as it stands, and resumes with the response or
    with the rejection value thrown. *)
Definition axios_post (url : string) (body : Js.Value)
  (reply : Js.Value + AxiosResponse) : Act AxiosResponse :=
  fun p =>
    (match reply with
     | inl error => inl (Rejection error)
     | inr response => inr response
     end,
     {| form := form p; defaultPrevented := defaultPrevented p;
        posted := (posted p ++ [{| target := url; payload := body |}])%list;
        shown := (shown p ++ [form p])%list |}).

(** [error.response] on what was caught; an engine error has no such
    property. *)
Definition responseOf (caught : Caught) : Js.Completion Js.Value :=
  match caught with
  | Rejection error => Js.get error "response"
  | Native _ => Js.ret Js.Undefined
  end.

Section Render.

(** The form state of the render that created the handlers. *)
Variable rendered : Form.

Open Scope act_scope.

Definition handleSendReset (reply : Js.Value + AxiosResponse) : Act unit :=
  preventDefault ;;;
  setLoading true ;;;
  setError (Js.Str "") ;;;
  setSuccess "" ;;;
  guarded
    (response <--
       axios_post "http://localhost:8000/auth/send-password-reset-email"
                  (Js.Obj [("email", Js.Str (email rendered))]) reply ;;;
     flag <-- reading (Js.get (data response) "success") ;;;
     (if truthy flag
      then setSuccess
             "Password reset email sent! Please check your email for the reset link."
      else done tt))
    (fun error =>
       response <-- reading (responseOf error) ;;;
       (if truthy (optionalGet (optionalGet response "data") "detail")
        then
          response' <-- reading (responseOf error) ;;;
          data' <-- reading (Js.get response' "data") ;;;
          detail <-- reading (Js.get data' "detail") ;;;
          setError detail
        else setError (Js.Str "Failed to send reset email. Please try again.")))
    (setLoading false).

(** The [onChange] handler of the input. *)
Definition onChange (value : string) : Act unit := setEmail value.

End Render.

(** What the page renders of the form state: the two banners, and the
    submit button. *)
Definition errorBanner (f : Form) : bool := truthy (error f).

Definition successBanner (f : Form) : bool := negb (String.eqb (success f) "").

Definition submitDisabled (f : Form) : bool := loading f.

Definition submitLabel (f : Form) : string :=
  if loading f then "Sending Reset Email..." else "Send Reset Email".

(** Submitting the form as rendered. *)
Definition submit (f : Form) (reply : Js.Value + AxiosResponse)
  : (Caught + unit) * Page :=
  handleSendReset f reply (open f).

End ForgotPasswordPage.

(** One completed use of the store by a consumer: an operation of the
    context value with its arguments, the clock readings or the exchange
    outcome it met, nothing else running meanwhile. *)
Inductive Call : Type :=
| AddMessage (call : Append)
| ClearMessages
| CreateNewConversation
| LoadConversation (conversationId : string) (outcome : Outcome Js.Value)
| LoadAgentConversations (agentName : string)
                         (outcome : Outcome (list Conversation.t))
| DeleteConversation (conversationId : string) (outcome : Outcome Js.Value)
| SetIsLoading (loading : bool).

Definition invoke (c : Call) (context : ChatContextType.t) : Proc unit :=
  match c with
  | AddMessage call =>
      ChatContextType.addMessage context (now call) (today call) (text call)
                                 (sender call)
  | ClearMessages => ChatContextType.clearMessages context
  | CreateNewConversation => ChatContextType.createNewConversation context
  | LoadConversation conversationId outcome =>
      ChatContextType.loadConversation context conversationId
                                       (undisturbed outcome)
  | LoadAgentConversations agentName outcome =>
      ChatContextType.loadAgentConversations context agentName
                                             (undisturbed outcome)
  | DeleteConversation conversationId outcome =>
      ChatContextType.deleteConversation context conversationId
                                         (undisturbed outcome)
  | SetIsLoading loading => ChatContextType.setIsLoading context loading
  end.

(** Each call is made from the render of the state the previous one left. *)
Definition step (st : State.t) (c : Call) : State.t := after (invoke c) st.

Definition session (calls : list Call) (st : State.t) : State.t :=
  fold_left step calls st.

(** The remote store lists each conversation once. *)
Definition listsOnce (c : Call) : Prop :=
  match c with
  | LoadAgentConversations _ (inr (true, inr agentConversations)) =>
      NoDup (List.map Conversation.id agentConversations)
  | _ => True
  end.

(** The call is not the consumer raising the flag by the exposed setter. *)
Definition notRaising (c : Call) : Prop :=
  match c with
  | SetIsLoading true => False
  | _ => True
  end.

(** A cached list used in the examples. *)
Definition sampleConversations : list Conversation.t :=
  [Conversation.make "c1" "mech" "Pump seal" "2024-01-01" "2024-01-02" 4;
   Conversation.make "c2" "mech" "Bearing wear" "2024-02-01" "2024-02-03" 7].

(* ------------------------------------------------------------------ *)
(** ** Auxiliary facts                                                *)
(* ------------------------------------------------------------------ *)

Lemma toString_injective (m n : Z) : Js.toString m = Js.toString n -> m = n.
Proof.
  unfold Js.toString; intros E.
  apply (f_equal NilEmpty.int_of_string) in E.
  rewrite !NilEmpty.isi in E.
  injection E as E.
  rewrite <- (DecimalZ.of_to m), <- (DecimalZ.of_to n).
  now rewrite E.
Qed.

Lemma remapMessage_remote (msg : RemoteMessage.t) :
  remapMessage (RemoteMessage.toJson msg) = Js.ret (RemoteMessage.toMessage msg).
Proof. reflexivity. Qed.

Lemma mapM_remote (history : list RemoteMessage.t) :
  Js.mapM remapMessage (List.map RemoteMessage.toJson history)
  = Js.ret (List.map RemoteMessage.toMessage history).
Proof.
  induction history as [|msg rest IH].
  - reflexivity.
  - cbn [List.map Js.mapM]. rewrite remapMessage_remote, IH. reflexivity.
Qed.

Lemma remapHistory_remote (history : list RemoteMessage.t) :
  remapHistory (historyJson history)
  = Js.ret (List.map RemoteMessage.toMessage history).
Proof. unfold remapHistory, historyJson. cbn. apply mapM_remote. Qed.

Section Removal.

Variable conversationId : string.

(** The list [prev.filter(conv => conv.id !== conversationId)]. *)
#[local] Abbreviation others l :=
  (filter (fun conv => negb (String.eqb (Conversation.id conv) conversationId)) l).

Lemma filter_others (l : list Conversation.t) :
  ~ In conversationId (List.map Conversation.id l) -> others l = l.
Proof.
  induction l as [|conv rest IH]; intros Hnot.
  - reflexivity.
  - cbn [filter].
    destruct (String.eqb_spec (Conversation.id conv) conversationId) as [E|N].
    + exfalso. apply Hnot. left. exact E.
    + cbn [negb]. f_equal. apply IH. intros Hin. apply Hnot. right. exact Hin.
Qed.

Lemma filter_unique (l : list Conversation.t) :
  NoDup (List.map Conversation.id l) ->
  In conversationId (List.map Conversation.id l) ->
  exists before conv rest,
    l = (before ++ conv :: rest)%list /\
    Conversation.id conv = conversationId /\
    others l = (before ++ rest)%list.
Proof.
  induction l as [|head tail IH]; intros Hnd Hin.
  - destruct Hin.
  - cbn [List.map] in Hnd. inversion Hnd as [|x xs Hfresh Hnd']; subst.
    cbn [filter].
    destruct (String.eqb_spec (Conversation.id head) conversationId) as [E|N].
    + exists [], head, tail. cbn [negb app]. repeat split; trivial.
      apply filter_others. rewrite <- E. exact Hfresh.
    + destruct Hin as [E|Hin]; [contradiction|].
      destruct (IH Hnd' Hin) as (before & conv & rest & Hl & Hid & Hf).
      exists (head :: before), conv, rest. cbn [negb app].
      split; [now rewrite Hl at 1|].
      split; [exact Hid|].
      now rewrite Hf.
Qed.

Lemma filter_none_left (l : list Conversation.t) :
  ~ In conversationId (List.map Conversation.id (others l)).
Proof.
  intros Hin. apply in_map_iff in Hin. destruct Hin as (conv & Hid & Hin).
  apply filter_In in Hin. destruct Hin as [_ Hkeep]. cbn beta in Hkeep.
  rewrite <- Hid, String.eqb_refl in Hkeep. discriminate.
Qed.

Lemma filter_length (l : list Conversation.t) :
  (List.length (others l)
   + count_occ string_dec (List.map Conversation.id l) conversationId
   = List.length l)%nat.
Proof.
  induction l as [|conv rest IH].
  - reflexivity.
  - cbn [filter List.map count_occ].
    destruct (String.eqb_spec (Conversation.id conv) conversationId) as [E|N];
      destruct (string_dec (Conversation.id conv) conversationId) as [E'|N'];
      try contradiction; cbn [negb List.length]; lia.
Qed.

End Removal.

(* ------------------------------------------------------------------ *)
(** ** loadConversation                                               *)
(* ------------------------------------------------------------------ *)

Ltac run_call :=
  unfold after, perform, exec, run;
  cbn [ChatProvider.value ChatContextType.loadConversation
       ChatContextType.loadAgentConversations
       ChatContextType.deleteConversation ChatContextType.addMessage
       ChatContextType.clearMessages ChatContextType.createNewConversation
       ChatContextType.setIsLoading];
  unfold ChatProvider.loadConversation, ChatProvider.loadAgentConversations,
    ChatProvider.deleteConversation, ChatProvider.addMessage,
    ChatProvider.clearMessages, ChatProvider.createNewConversation,
    try_catch_finally, try_catch, undisturbed, respond, alone.

(** The hook state an undisturbed [loadConversation] call ends in, by
    outcome. *)
Lemma loadConversation_undisturbed (st : State.t) (conversationId : string)
  (outcome : Outcome Js.Value) :
  after (fun context =>
           ChatContextType.loadConversation context conversationId
                                            (undisturbed outcome)) st
  = match outcome with
    | inr (true, inr history) =>
        match remapHistory history with
        | inr loadedMessages =>
            State.make loadedMessages (State.conversations st)
                       (Some conversationId) false
        | inl _ =>
            State.make (State.messages st) (State.conversations st)
                       (State.currentConversationId st) false
        end
    | _ =>
        State.make (State.messages st) (State.conversations st)
                   (State.currentConversationId st) false
    end.
Proof.
  run_call.
  destruct outcome as [e|[[|] [e|history]]]; cbn; try reflexivity.
  unfold remapHistory.
  destruct (Js.get history "messages") as [e|messages]; cbn; [reflexivity|].
  destruct (Js.map messages remapMessage) as [e|loaded]; cbn; reflexivity.
Qed.

(** C1.  When the fetch of [loadConversation(id)] returns a successful
    response carrying a message history, the message list becomes exactly
    that history remapped element by element (the timestamp string turned
    into a date, id, text and sender copied) and the current conversation
    id becomes [id] -- whatever the state was and whatever other handlers
    did while the call was suspended. *)
Theorem loadConversation_success_replaces_messages :
  forall (st : State.t) (conversationId : string)
         (duringFetch duringBody : State.t -> State.t)
         (history : list RemoteMessage.t),
    let reply :=
      {| meanwhile := duringFetch;
         settles := Js.ret {| ok := true;
                              json := {| meanwhile := duringBody;
                                         settles := Js.ret (historyJson history) |} |} |} in
    let st' :=
      after (fun context =>
               ChatContextType.loadConversation context conversationId reply) st in
    State.messages st' = List.map RemoteMessage.toMessage history /\
    State.currentConversationId st' = Some conversationId.
Proof.
  intros st conversationId duringFetch duringBody history reply st'.
  subst st' reply. run_call. cbn.
  rewrite mapM_remote. cbn. split; reflexivity.
Qed.

(** C2 fails as stated: a successful response whose only message lacks its
    [id] field is a malformed body, yet nothing throws; the message list is
    replaced and the current conversation id changes. *)
Lemma loadConversation_accepts_message_without_id :
  let earlier :=
    Message.make (Js.Str "1700000000000") (Js.Str "hello") (Js.Str "user")
                 (DateAt 1700000000000) in
  let st := State.make [earlier] [] (Some "c0") false in
  let body :=
    Js.Obj [("messages",
             Js.Arr [Js.Obj [("text", Js.Str "hi"); ("sender", Js.Str "bot");
                             ("timestamp", Js.Str "2024-01-01T00:00:00Z")]])] in
  let st' :=
    after (fun context =>
             ChatContextType.loadConversation context "c1"
               (undisturbed (inr (true, inr body)))) st in
  (forall history, body <> historyJson history) /\
  State.messages st'
  = [Message.make Js.Undefined (Js.Str "hi") (Js.Str "bot")
                  (DateOf (Js.Str "2024-01-01T00:00:00Z"))] /\
  State.messages st' <> State.messages st /\
  State.currentConversationId st' = Some "c1" /\
  State.currentConversationId st' <> State.currentConversationId st.
Proof.
  cbv zeta. rewrite loadConversation_undisturbed. cbn.
  repeat split; try discriminate.
  intros [|msg [|more rest]]; cbn; discriminate.
Qed.

(** C2, amended.  When the fetch throws, the response status is not a
    success, reading the body throws, or the remapping throws, an
    undisturbed [loadConversation] call leaves the message list and the
    current conversation id as they were. *)
Theorem loadConversation_failure_keeps_state :
  forall (st : State.t) (conversationId : string) (outcome : Outcome Js.Value),
    LoadFailure outcome ->
    let st' :=
      after (fun context =>
               ChatContextType.loadConversation context conversationId
                                                (undisturbed outcome)) st in
    State.messages st' = State.messages st /\
    State.currentConversationId st' = State.currentConversationId st.
Proof.
  intros st conversationId outcome Hfail st'. subst st'.
  rewrite loadConversation_undisturbed.
  destruct Hfail as [e|body|e|history e Hthrows]; cbn.
  - split; reflexivity.
  - split; reflexivity.
  - split; reflexivity.
  - rewrite Hthrows. split; reflexivity.
Qed.

Lemma loadConversation_failure_keeps_state_witness :
  let earlier :=
    Message.make (Js.Str "1700000000000") (Js.Str "hello") (Js.Str "user")
                 (DateAt 1700000000000) in
  let st := State.make [earlier] [] (Some "c0") false in
  let outcome : Outcome Js.Value :=
    inr (true, inr (Js.Obj [("messages", Js.Arr [Js.Null])])) in
  LoadFailure outcome /\
  (let st' :=
     after (fun context =>
              ChatContextType.loadConversation context "missing"
                                               (undisturbed outcome)) st in
   State.messages st' = State.messages st /\
   State.currentConversationId st' = State.currentConversationId st).
Proof.
  cbv zeta.
  assert (H : LoadFailure
                (inr (true, inr (Js.Obj [("messages", Js.Arr [Js.Null])])))).
  { apply remapping_throws with (e := Js.TypeError). reflexivity. }
  split.
  - exact H.
  - exact (loadConversation_failure_keeps_state
             (State.make
                [Message.make (Js.Str "1700000000000") (Js.Str "hello")
                              (Js.Str "user") (DateAt 1700000000000)]
                [] (Some "c0") false)
             "missing" _ H).
Defined.

(** The loading flag along a [loadConversation] call during which the
    other handlers leave the flag alone. *)
Lemma loadConversation_flag_when_quiet :
  forall (st : State.t) (conversationId : string)
         (reply : Pending (Response Js.Value)),
    quiet reply ->
    let call :=
      ChatContextType.loadConversation (ChatProvider.value st)
                                       conversationId reply in
    let w := exec call st in
    hd_error (observed w)
    = Some (State.make (State.messages st) (State.conversations st)
                       (State.currentConversationId st) true) /\
    Forall (fun pending => State.isLoading pending = true) (observed w) /\
    fst (call (boot st)) = Js.ret tt /\
    State.isLoading (store w) = false.
Proof.
  intros st conversationId [others completion] [Hfetch Hbody] call w.
  subst w call. cbn [meanwhile settles] in Hfetch, Hbody.
  run_call. cbn.
  pose proof (Hfetch (State.make (State.messages st) (State.conversations st)
                                 (State.currentConversationId st) true))
    as Hresumed.
  cbn in Hresumed.
  destruct completion as [e|[status [others' body]]]; cbn.
  - repeat split. repeat constructor. exact Hresumed.
  - specialize (Hbody _ eq_refl). cbn [json meanwhile] in Hbody.
    destruct status; cbn.
    + pose proof (Hbody (others (State.make (State.messages st)
                                            (State.conversations st)
                                            (State.currentConversationId st)
                                            true))) as Hresumed'.
      rewrite Hresumed in Hresumed'.
      assert (Hall :
        Forall (fun pending => State.isLoading pending = true)
          [State.make (State.messages st) (State.conversations st)
                      (State.currentConversationId st) true;
           others (State.make (State.messages st) (State.conversations st)
                              (State.currentConversationId st) true);
           others (State.make (State.messages st) (State.conversations st)
                              (State.currentConversationId st) true);
           others' (others (State.make (State.messages st)
                                       (State.conversations st)
                                       (State.currentConversationId st)
                                       true))]).
      { repeat constructor; assumption. }
      destruct body as [e|history]; cbn; [repeat split; exact Hall|].
      destruct (Js.get history "messages") as [e|messages]; cbn;
        [repeat split; exact Hall|].
      destruct (Js.map messages remapMessage) as [e|loaded]; cbn;
        repeat split; exact Hall.
    + repeat split. repeat constructor. exact Hresumed.
Qed.

Lemma undisturbed_quiet {B : Type} (outcome : Outcome B) :
  quiet (undisturbed outcome).
Proof.
  split.
  - intros st. reflexivity.
  - intros response E st. destruct outcome as [e|[status body]]; cbn in E.
    + discriminate E.
    + injection E as <-. reflexivity.
Qed.

(** C5.  Whatever the outcome of the exchange -- success, non-success
    status, a thrown error -- a [loadConversation] call sets the loading
    flag before it first suspends, the flag is true at every point where
    the call is suspended or resumes, and the call completes normally with
    the flag false. *)
Theorem loadConversation_loading_flag :
  forall (st : State.t) (conversationId : string) (outcome : Outcome Js.Value),
    let call :=
      ChatContextType.loadConversation (ChatProvider.value st)
                                       conversationId (undisturbed outcome) in
    let w := exec call st in
    hd_error (observed w)
    = Some (State.make (State.messages st) (State.conversations st)
                       (State.currentConversationId st) true) /\
    Forall (fun pending => State.isLoading pending = true) (observed w) /\
    fst (call (boot st)) = Js.ret tt /\
    State.isLoading (store w) = false.
Proof.
  intros st conversationId outcome.
  apply loadConversation_flag_when_quiet, undisturbed_quiet.
Qed.

(** When a second [loadConversation] settles while the first is still
    suspended, the flag is false during the rest of the first call's
    suspension; [loadConversation_flag_when_quiet] does not cover it. *)
Example loadConversation_overlapping_calls :
  let st := State.make [] [] None false in
  let second (live : State.t) : State.t :=
    run (ChatProvider.loadConversation "c2" (undisturbed (inl Js.NetworkError)))
        live in
  let reply : Pending (Response Js.Value) :=
    {| meanwhile := second;
       settles := Js.ret (respond false (Js.throw Js.SyntaxError)) |} in
  List.map State.isLoading
    (observed (exec (ChatProvider.loadConversation "c1" reply) st))
  = [true; false].
Proof. reflexivity. Qed.


(* ------------------------------------------------------------------ *)
(** ** addMessage                                                     *)
(* ------------------------------------------------------------------ *)

Lemma append_messages (st : State.t) (call : Append) :
  append st call
  = State.make (State.messages st ++ [appended call]) (State.conversations st)
               (State.currentConversationId st) (State.isLoading st).
Proof. reflexivity. Qed.

(** One message per call, at the end of the list, in call order. *)
Lemma appendAll_messages (calls : list Append) (st : State.t) :
  State.messages (appendAll calls st)
  = (State.messages st ++ List.map appended calls)%list.
Proof.
  revert st. induction calls as [|call rest IH]; intros st.
  - cbn. now rewrite app_nil_r.
  - cbn [appendAll fold_left List.map]. fold (appendAll rest (append st call)).
    rewrite IH, append_messages. cbn [State.messages].
    now rewrite <- app_assoc.
Qed.

Lemma appendAll_length (calls : list Append) (st : State.t) :
  List.length (State.messages (appendAll calls st))
  = (List.length (State.messages st) + List.length calls)%nat.
Proof. now rewrite appendAll_messages, length_app, length_map. Qed.

(** The ids given out are as distinct as the readings of [Date.now()]. *)
Lemma appended_ids_distinct (calls : list Append) :
  NoDup (List.map now calls) ->
  NoDup (List.map (fun call => Message.id (appended call)) calls).
Proof.
  induction calls as [|call rest IH]; intros Hnd; cbn [List.map].
  - constructor.
  - cbn [List.map] in Hnd. inversion Hnd as [|x xs Hfresh Hnd']; subst.
    constructor; [|now apply IH].
    intros Hin. apply Hfresh.
    apply in_map_iff in Hin. destruct Hin as (other & Hid & Hin).
    cbn in Hid. injection Hid as Hid. apply toString_injective in Hid.
    apply in_map_iff. exists other. split; assumption.
Qed.

(** C3 (failing input).  Two [addMessage] calls that read the same
    millisecond off [Date.now()] append two messages, in order, with the
    same id. *)
Theorem addMessage_same_millisecond_same_id :
  let first := {| now := 1700000000000; today := 1700000000000;
                  text := "hello"; sender := user |} in
  let second := {| now := 1700000000000; today := 1700000000000;
                   text := "hi there"; sender := bot |} in
  let st' := appendAll [first; second] State.initial in
  List.map Message.text (State.messages st')
  = [Js.Str "hello"; Js.Str "hi there"] /\
  List.map Message.id (State.messages st')
  = [Js.Str "1700000000000"; Js.Str "1700000000000"] /\
  ~ NoDup (List.map Message.id (State.messages st')).
Proof.
  cbv zeta.
  assert (E : List.map Message.id
                (State.messages
                   (appendAll
                      [{| now := 1700000000000; today := 1700000000000;
                          text := "hello"; sender := user |};
                       {| now := 1700000000000; today := 1700000000000;
                          text := "hi there"; sender := bot |}]
                      State.initial))
              = [Js.Str "1700000000000"; Js.Str "1700000000000"])
    by (vm_compute; reflexivity).
  split; [vm_compute; reflexivity|]. split; [exact E|].
  rewrite E. intros Hnd. inversion Hnd as [|x xs Hfresh _]; subst.
  apply Hfresh. left. reflexivity.
Qed.

(* ------------------------------------------------------------------ *)
(** ** clearMessages and createNewConversation                        *)
(* ------------------------------------------------------------------ *)

(** C8.  [clearMessages] and [createNewConversation] are the same
    operation; from any state it empties the message list and sets the
    current conversation id to none, keeps the cached conversation list and
    the loading flag, sends no request, logs nothing and never suspends. *)
Theorem clearMessages_resets :
  forall (rendered st : State.t),
    let context := ChatProvider.value rendered in
    ChatContextType.clearMessages context
    = ChatContextType.createNewConversation context /\
    ChatContextType.clearMessages context (boot st)
    = (Js.ret tt,
       {| store := State.make [] (State.conversations st) None
                              (State.isLoading st);
          console := [];
          network := [];
          observed := [] |}).
Proof. intros rendered st. split; reflexivity. Qed.

(* ------------------------------------------------------------------ *)
(** ** loadAgentConversations                                         *)
(* ------------------------------------------------------------------ *)

(** C7.  An undisturbed [loadAgentConversations] call replaces the cached
    conversation list by the returned one when the response is a success
    whose body reads, keeps it in every other outcome, and in all outcomes
    keeps the loading flag, the message list and the current conversation
    id. *)
Theorem loadAgentConversations_effect :
  forall (st : State.t) (agentName : string)
         (outcome : Outcome (list Conversation.t)),
    let st' :=
      after (fun context =>
               ChatContextType.loadAgentConversations context agentName
                                                      (undisturbed outcome)) st in
    State.conversations st'
    = match outcome with
      | inr (true, inr agentConversations) => agentConversations
      | inr (true, inl _) | inr (false, _) | inl _ => State.conversations st
      end /\
    State.isLoading st' = State.isLoading st /\
    State.messages st' = State.messages st /\
    State.currentConversationId st' = State.currentConversationId st.
Proof.
  intros st agentName outcome st'. subst st'. run_call.
  destruct outcome as [e|[[|] [e|returned]]]; cbn; repeat split.
Qed.

(** While the call is suspended the loading flag is the one it found. *)
Lemma loadAgentConversations_never_loading (st : State.t) (agentName : string)
  (outcome : Outcome (list Conversation.t)) :
  Forall (fun pending => State.isLoading pending = State.isLoading st)
    (observed
       (perform (fun context =>
                   ChatContextType.loadAgentConversations context agentName
                                                          (undisturbed outcome))
                st)).
Proof.
  run_call.
  destruct outcome as [e|[[|] [e|returned]]]; cbn; repeat constructor.
Qed.

(* ------------------------------------------------------------------ *)
(** ** deleteConversation                                             *)
(* ------------------------------------------------------------------ *)

Lemma strictEq_true (current : option string) (conversationId : string) :
  strictEq current conversationId = true <-> current = Some conversationId.
Proof.
  destruct current as [id|]; cbn.
  - rewrite String.eqb_eq. split; [now intros ->|now intros [= ->]].
  - split; discriminate.
Qed.

(** The hook state an undisturbed [deleteConversation] call ends in.  The
    pointer compared is the one of the render the closure was created in;
    the list filtered is the one in the hook state when the updater runs. *)
Lemma deleteConversation_undisturbed (rendered live : State.t)
  (conversationId : string) (outcome : Outcome Js.Value) :
  run (ChatProvider.deleteConversation rendered conversationId
                                       (undisturbed outcome)) live
  = match outcome with
    | inr (true, _) =>
        let remaining :=
          filter (fun conv =>
                    negb (String.eqb (Conversation.id conv) conversationId))
                 (State.conversations live) in
        if strictEq (State.currentConversationId rendered) conversationId
        then State.make [] remaining None (State.isLoading live)
        else State.make (State.messages live) remaining
                        (State.currentConversationId live)
                        (State.isLoading live)
    | inr (false, _) | inl _ => live
    end.
Proof.
  run_call.
  destruct outcome as [e|[[|] body]]; cbn; try reflexivity.
  destruct (strictEq (State.currentConversationId rendered) conversationId);
    reflexivity.
Qed.

(** C4.  When the remote delete succeeds and the cached list holds the id
    once, the list afterwards is the prior list without that entry, the
    others in their order; the message list and the current conversation id
    are reset when the current conversation id was [id] before the call,
    and are untouched when it was not. *)
Theorem deleteConversation_success :
  forall (st : State.t) (conversationId : string)
         (body : Js.Completion Js.Value),
    NoDup (List.map Conversation.id (State.conversations st)) ->
    In conversationId (List.map Conversation.id (State.conversations st)) ->
    let st' :=
      after (fun context =>
               ChatContextType.deleteConversation context conversationId
                 (undisturbed (inr (true, body)))) st in
    (exists before conv rest,
        State.conversations st = (before ++ conv :: rest)%list /\
        Conversation.id conv = conversationId /\
        State.conversations st' = (before ++ rest)%list) /\
    List.length (State.conversations st')
    = (List.length (State.conversations st) - 1)%nat /\
    (State.currentConversationId st = Some conversationId ->
     State.messages st' = [] /\ State.currentConversationId st' = None) /\
    (State.currentConversationId st <> Some conversationId ->
     State.messages st' = State.messages st /\
     State.currentConversationId st' = State.currentConversationId st).
Proof.
  intros st conversationId body Hunique Hcached st'.
  assert (Hst' : st' = run (ChatProvider.deleteConversation st conversationId
                              (undisturbed (inr (true, body)))) st)
    by reflexivity.
  rewrite deleteConversation_undisturbed in Hst'. cbv zeta in Hst'.
  destruct (filter_unique conversationId _ Hunique Hcached)
    as (before & conv & rest & Hsplit & Hid & Hfilter).
  assert (Hlist : State.conversations st' = (before ++ rest)%list).
  { rewrite Hst'.
    destruct (strictEq (State.currentConversationId st) conversationId);
      exact Hfilter. }
  split; [exists before, conv, rest; repeat split; assumption|].
  split.
  { rewrite Hlist, Hsplit, !length_app. cbn [List.length]. lia. }
  split.
  - intros Hcurrent. apply strictEq_true in Hcurrent.
    rewrite Hst', Hcurrent. split; reflexivity.
  - intros Hother.
    destruct (strictEq (State.currentConversationId st) conversationId) eqn:E.
    + apply strictEq_true in E. contradiction.
    + rewrite Hst'. split; reflexivity.
Qed.

Lemma deleteConversation_success_witness :
  let st := State.make [] sampleConversations (Some "c1") false in
  NoDup (List.map Conversation.id (State.conversations st)) /\
  In "c1" (List.map Conversation.id (State.conversations st)) /\
  (let st' :=
     after (fun context =>
              ChatContextType.deleteConversation context "c1"
                (undisturbed (inr (true, inl Js.SyntaxError)))) st in
   (exists before conv rest,
       State.conversations st = (before ++ conv :: rest)%list /\
       Conversation.id conv = "c1" /\
       State.conversations st' = (before ++ rest)%list) /\
   List.length (State.conversations st')
   = (List.length (State.conversations st) - 1)%nat /\
   (State.currentConversationId st = Some "c1" ->
    State.messages st' = [] /\ State.currentConversationId st' = None) /\
   (State.currentConversationId st <> Some "c1" ->
    State.messages st' = State.messages st /\
    State.currentConversationId st' = State.currentConversationId st)).
Proof.
  cbv zeta.
  assert (Hunique : NoDup (List.map Conversation.id sampleConversations)).
  { cbn. repeat constructor; cbn; intuition discriminate. }
  assert (Hcached : In "c1" (List.map Conversation.id sampleConversations)).
  { cbn. left. reflexivity. }
  split; [exact Hunique|]. split; [exact Hcached|].
  exact (deleteConversation_success
           (State.make [] sampleConversations (Some "c1") false) "c1"
           (inl Js.SyntaxError) Hunique Hcached).
Defined.

(** The scenario of the specification: deleting the current conversation
    ["c1"] out of ["c1"; "c2"]. *)
Example deleteConversation_current :
  after (fun context =>
           ChatContextType.deleteConversation context "c1"
             (undisturbed (inr (true, inr Js.Null))))
        (State.make [appended {| now := 5; today := 5; text := "hi";
                                 sender := user |}]
                    sampleConversations (Some "c1") false)
  = State.make [] [Conversation.make "c2" "mech" "Bearing wear" "2024-02-01"
                                     "2024-02-03" 7]
               None false.
Proof. reflexivity. Qed.

(** An id the cache does not hold: the list stays as it is. *)
Lemma deleteConversation_not_cached (st : State.t) (conversationId : string)
  (body : Js.Completion Js.Value) :
  ~ In conversationId (List.map Conversation.id (State.conversations st)) ->
  State.conversations
    (after (fun context =>
              ChatContextType.deleteConversation context conversationId
                (undisturbed (inr (true, body)))) st)
  = State.conversations st.
Proof.
  intros Hnot.
  change (State.conversations
            (run (ChatProvider.deleteConversation st conversationId
                    (undisturbed (inr (true, body)))) st)
          = State.conversations st).
  rewrite deleteConversation_undisturbed. cbv zeta.
  destruct (strictEq (State.currentConversationId st) conversationId);
    cbn [State.conversations]; now apply filter_others.
Qed.

(** C6.  When the remote delete fails -- the fetch throws or the response
    status is not a success -- an undisturbed [deleteConversation] call
    leaves the cached conversation list and the current conversation id
    (indeed the whole hook state) as they were. *)
Theorem deleteConversation_failure_keeps_state :
  forall (st : State.t) (conversationId : string),
    (forall e : Js.Exn,
        let st' :=
          after (fun context =>
                   ChatContextType.deleteConversation context conversationId
                     (undisturbed (inl e))) st in
        State.conversations st' = State.conversations st /\
        State.currentConversationId st' = State.currentConversationId st /\
        st' = st) /\
    (forall body : Js.Completion Js.Value,
        let st' :=
          after (fun context =>
                   ChatContextType.deleteConversation context conversationId
                     (undisturbed (inr (false, body)))) st in
        State.conversations st' = State.conversations st /\
        State.currentConversationId st' = State.currentConversationId st /\
        st' = st).
Proof.
  intros st conversationId. split.
  - intros e st'.
    assert (E : st' = st)
      by exact (deleteConversation_undisturbed st st conversationId (inl e)).
    rewrite E. repeat split.
  - intros body st'.
    assert (E : st' = st)
      by exact (deleteConversation_undisturbed st st conversationId
                  (inr (false, body))).
    rewrite E. repeat split.
Qed.

(** C10.  After a successful [deleteConversation(id)] no cached entry has
    that id, however many had it before: the list shrinks by the number of
    entries with that id. *)
Theorem deleteConversation_removes_every_match :
  forall (st : State.t) (conversationId : string)
         (body : Js.Completion Js.Value),
    let st' :=
      after (fun context =>
               ChatContextType.deleteConversation context conversationId
                 (undisturbed (inr (true, body)))) st in
    ~ In conversationId (List.map Conversation.id (State.conversations st')) /\
    (List.length (State.conversations st')
     + count_occ string_dec (List.map Conversation.id (State.conversations st))
                 conversationId
     = List.length (State.conversations st))%nat.
Proof.
  intros st conversationId body st'.
  assert (Hst' : st' = run (ChatProvider.deleteConversation st conversationId
                              (undisturbed (inr (true, body)))) st)
    by reflexivity.
  rewrite deleteConversation_undisturbed in Hst'. cbv zeta in Hst'.
  assert (Hlist : State.conversations st'
                  = filter (fun conv =>
                              negb (String.eqb (Conversation.id conv)
                                               conversationId))
                           (State.conversations st)).
  { rewrite Hst'.
    destruct (strictEq (State.currentConversationId st) conversationId);
      reflexivity. }
  rewrite Hlist. split.
  - apply filter_none_left.
  - apply filter_length.
Qed.

(** Three cached entries, two of them with id ["c1"]: one call removes
    both. *)
Example deleteConversation_duplicates :
  State.conversations
    (after (fun context =>
              ChatContextType.deleteConversation context "c1"
                (undisturbed (inr (true, inr Js.Null))))
           (State.make []
              (Conversation.make "c1" "mech" "Pump seal (copy)" "2024-01-01"
                                 "2024-01-02" 4 :: sampleConversations)
              None false))
  = [Conversation.make "c2" "mech" "Bearing wear" "2024-02-01" "2024-02-03" 7].
Proof. reflexivity. Qed.

(* ------------------------------------------------------------------ *)
(** ** useChat                                                        *)
(* ------------------------------------------------------------------ *)

(** C9.  With no enclosing [ChatProvider] the ambient context is undefined
    and [useChat] throws its error; it returns no context value.  Under a
    provider it returns that provider's value. *)
Theorem useChat_outside_provider :
  useContext ChatContext [] = None /\
  useChat [] = Js.throw (Js.Error "useChat must be used within a ChatProvider") /\
  (forall context : ChatContextType.t, useChat [] <> Js.ret context) /\
  (forall rendered : State.t,
      useChat (underProvider rendered) = Js.ret (ChatProvider.value rendered)).
Proof.
  repeat split.
  intros context H. discriminate H.
Qed.


(* ------------------------------------------------------------------ *)
(** ** Further properties of the chat store                           *)
(* ------------------------------------------------------------------ *)

Lemma remapMessage_cases (msg : Js.Value) :
  remapMessage msg
  = if remappable msg then Js.ret (remapped msg) else Js.throw Js.TypeError.
Proof.
  unfold remapMessage, remappable, remapped, newDate.
  destruct msg as [| |b|n|s|items|props]; cbn; try reflexivity.
  destruct (Js.unprintable (Js.lookup "timestamp" props)); reflexivity.
Qed.

Lemma mapM_remap_cases (items : list Js.Value) :
  Js.mapM remapMessage items
  = if forallb remappable items
    then Js.ret (List.map remapped items)
    else Js.throw Js.TypeError.
Proof.
  induction items as [|msg rest IH].
  - reflexivity.
  - cbn [Js.mapM forallb List.map]. rewrite remapMessage_cases, IH.
    destruct (remappable msg); cbn; [|reflexivity].
    destruct (forallb remappable rest); reflexivity.
Qed.

(** X1.  The remapping of a parsed body succeeds exactly when its
    [messages] property is an array none of whose elements is [null] or
    carries a timestamp that cannot be converted; it then yields one
    message per element, in order, a field the element lacks being
    [undefined].  Whatever else the body is, a [TypeError] is thrown. *)
Theorem remapHistory_succeeds_iff :
  forall (history : Js.Value),
    (forall loadedMessages,
        remapHistory history = Js.ret loadedMessages <->
        exists items,
          field history "messages" = Js.Arr items /\
          forallb remappable items = true /\
          loadedMessages = List.map remapped items) /\
    (forall e, remapHistory history = Js.throw e -> e = Js.TypeError).
Proof.
  intros history. unfold remapHistory, Js.ret, Js.throw. split.
  - intros loaded. split.
    + intros H.
      destruct history as [| |b|n|s|elements|props]; cbn in H;
        try discriminate H.
      cbn [field].
      destruct (Js.lookup "messages" props) as [| |b|n|s|items|props'];
        cbn in H; try discriminate H.
      rewrite mapM_remap_cases in H.
      destruct (forallb remappable items) eqn:Hall; [|discriminate H].
      injection H as <-. exists items. repeat split. exact Hall.
    + intros (items & Hfield & Hall & ->).
      destruct history as [| |b|n|s|elements|props]; cbn in Hfield;
        try discriminate Hfield.
      cbn. rewrite Hfield. cbn. rewrite mapM_remap_cases, Hall. reflexivity.
  - intros e H.
    destruct history as [| |b|n|s|elements|props]; cbn in H;
      try (injection H as <-; reflexivity).
    destruct (Js.lookup "messages" props) as [| |b|n|s|items|props'];
      cbn in H; try (injection H as <-; reflexivity).
    rewrite mapM_remap_cases in H.
    destruct (forallb remappable items); [discriminate H|].
    injection H as <-. reflexivity.
Qed.

(** The hook state a [loadConversation] call ends in when other handlers
    run during its suspensions. *)
Lemma loadConversation_disturbed (st : State.t) (conversationId : string)
  (duringFetch duringBody : State.t -> State.t) (outcome : Outcome Js.Value) :
  let entered :=
    State.make (State.messages st) (State.conversations st)
               (State.currentConversationId st) true in
  let unload (left : State.t) :=
    State.make (State.messages left) (State.conversations left)
               (State.currentConversationId left) false in
  after (fun context =>
           ChatContextType.loadConversation context conversationId
             (disturbed duringFetch duringBody outcome)) st
  = match outcome with
    | inr (true, inr history) =>
        let left := duringBody (duringFetch entered) in
        match remapHistory history with
        | inr loadedMessages =>
            State.make loadedMessages (State.conversations left)
                       (Some conversationId) false
        | inl _ => unload left
        end
    | inr (true, inl _) => unload (duringBody (duringFetch entered))
    | inr (false, _) | inl _ => unload (duringFetch entered)
    end.
Proof.
  cbv zeta. run_call. unfold disturbed.
  destruct outcome as [e|[[|] [e|history]]]; cbn; try reflexivity.
  unfold remapHistory.
  destruct (Js.get history "messages") as [e|messages]; cbn; [reflexivity|].
  destruct (Js.map messages remapMessage) as [e|loaded]; cbn; reflexivity.
Qed.

(** X2.  A failed [loadConversation] writes nothing but the loading flag:
    what other handlers wrote to the hook state while the call was
    suspended is all still there when it completes. *)
Theorem loadConversation_failure_keeps_others_writes :
  forall (st : State.t) (conversationId : string)
         (duringFetch duringBody : State.t -> State.t)
         (outcome : Outcome Js.Value),
    LoadFailure outcome ->
    let entered :=
      State.make (State.messages st) (State.conversations st)
                 (State.currentConversationId st) true in
    let left :=
      match outcome with
      | inr (true, _) => duringBody (duringFetch entered)
      | inr (false, _) | inl _ => duringFetch entered
      end in
    after (fun context =>
             ChatContextType.loadConversation context conversationId
               (disturbed duringFetch duringBody outcome)) st
    = State.make (State.messages left) (State.conversations left)
                 (State.currentConversationId left) false.
Proof.
  intros st conversationId duringFetch duringBody outcome Hfail.
  cbv zeta. rewrite loadConversation_disturbed. cbv zeta.
  destruct Hfail as [e|body|e|history e Hthrows]; try reflexivity.
  rewrite Hthrows. reflexivity.
Qed.

Lemma loadConversation_failure_keeps_others_writes_witness :
  let st := State.make [] sampleConversations (Some "c1") false in
  let typed := {| now := 1700000000500; today := 1700000000501;
                  text := "is the seal worn?"; sender := user |} in
  let outcome : Outcome Js.Value := inl Js.NetworkError in
  LoadFailure outcome /\
  after (fun context =>
           ChatContextType.loadConversation context "c2"
             (disturbed (fun live => append live typed) (fun live => live)
                        outcome)) st
  = State.make [appended typed] sampleConversations (Some "c1") false.
Proof.
  cbv zeta. split.
  - apply transport_error.
  - exact (loadConversation_failure_keeps_others_writes
             (State.make [] sampleConversations (Some "c1") false) "c2"
             (fun live =>
                append live {| now := 1700000000500; today := 1700000000501;
                               text := "is the seal worn?"; sender := user |})
             (fun live => live) (inl Js.NetworkError)
             (transport_error Js.NetworkError)).
Defined.

(** X3.  Two overlapping [loadConversation] calls are neither serialised
    nor versioned: when the call issued second settles while the first is
    still suspended, the first one's response, arriving last, decides the
    message list and the current conversation id; and from the moment the
    second call completes the loading flag is false although the first is
    still pending. *)
Theorem loadConversation_last_response_wins :
  forall (st : State.t) (first second : string)
         (firstHistory secondHistory : list RemoteMessage.t),
    let succeed (history : list RemoteMessage.t) : Outcome Js.Value :=
      inr (true, inr (historyJson history)) in
    let secondCall (live : State.t) : State.t :=
      run (ChatProvider.loadConversation second
             (undisturbed (succeed secondHistory))) live in
    let w :=
      perform (fun context =>
                 ChatContextType.loadConversation context first
                   (disturbed secondCall (fun live => live)
                              (succeed firstHistory))) st in
    State.messages (store w)
    = List.map RemoteMessage.toMessage firstHistory /\
    State.currentConversationId (store w) = Some first /\
    List.map State.isLoading (observed w) = [true; false; false; false] /\
    List.map State.currentConversationId (observed w)
    = [State.currentConversationId st; Some second; Some second; Some second].
Proof.
  intros st first second firstHistory secondHistory. cbv zeta.
  run_call. unfold disturbed. cbn.
  rewrite !mapM_remote. cbn. repeat split.
Qed.

(** X4.  In every outcome [loadConversation] sends exactly one request, a
    GET of [/api/conversations/<id>] with the id put in as it is, completes
    normally, and leaves the cached conversation list alone.  It logs once,
    under its own label, exactly when something threw; a non-success status
    is not logged. *)
Theorem loadConversation_effects :
  forall (st : State.t) (conversationId : string) (outcome : Outcome Js.Value),
    let call :=
      ChatContextType.loadConversation (ChatProvider.value st) conversationId
                                       (undisturbed outcome) in
    let w := exec call st in
    fst (call (boot st)) = Js.ret tt /\
    network w = [{| method := "GET";
                    url := "/api/conversations/" ++ conversationId |}] /\
    State.conversations (store w) = State.conversations st /\
    console w
    = match outcome with
      | inl e | inr (true, inl e) => [("Error loading conversation:", e)]
      | inr (true, inr history) =>
          match remapHistory history with
          | inl e => [("Error loading conversation:", e)]
          | inr _ => []
          end
      | inr (false, _) => []
      end.
Proof.
  intros st conversationId outcome. cbv zeta. run_call.
  destruct outcome as [e|[[|] [e|history]]]; cbn; try (repeat split; fail).
  unfold remapHistory.
  destruct (Js.get history "messages") as [e|messages]; cbn;
    [repeat split|].
  destruct (Js.map messages remapMessage) as [e|loaded]; cbn; repeat split.
Qed.

(** X5.  In every outcome [loadAgentConversations] sends exactly one
    request, a GET of [/api/agents/<name>/conversations], and completes
    normally; it logs once exactly when the fetch or the reading of the
    body threw, and is silent on a non-success status. *)
Theorem loadAgentConversations_effects :
  forall (st : State.t) (agentName : string)
         (outcome : Outcome (list Conversation.t)),
    let call :=
      ChatContextType.loadAgentConversations (ChatProvider.value st) agentName
                                             (undisturbed outcome) in
    let w := exec call st in
    fst (call (boot st)) = Js.ret tt /\
    network w = [{| method := "GET";
                    url := "/api/agents/" ++ agentName ++ "/conversations" |}] /\
    console w
    = match outcome with
      | inl e | inr (true, inl e) =>
          [("Error loading agent conversations:", e)]
      | inr (true, inr _) | inr (false, _) => []
      end.
Proof.
  intros st agentName outcome. cbv zeta. run_call.
  destruct outcome as [e|[[|] [e|returned]]]; cbn; repeat split.
Qed.

(** X6.  In every outcome [deleteConversation] sends exactly one request,
    a DELETE of [/api/conversations/<id>], suspends once and completes
    normally; it logs exactly when the fetch threw; and it never reads the
    response body, so how the body would read changes nothing. *)
Theorem deleteConversation_effects :
  forall (st : State.t) (conversationId : string) (outcome : Outcome Js.Value),
    let call (o : Outcome Js.Value) :=
      ChatContextType.deleteConversation (ChatProvider.value st) conversationId
                                         (undisturbed o) in
    let w := exec (call outcome) st in
    fst (call outcome (boot st)) = Js.ret tt /\
    network w = [{| method := "DELETE";
                    url := "/api/conversations/" ++ conversationId |}] /\
    observed w = [st; st] /\
    console w
    = match outcome with
      | inl e => [("Error deleting conversation:", e)]
      | inr _ => []
      end /\
    (forall status body body',
        call (inr (status, body')) (boot st)
        = call (inr (status, body)) (boot st)).
Proof.
  intros st conversationId outcome. cbv zeta. run_call.
  destruct outcome as [e|[[|] body]]; cbn;
    try destruct (strictEq (State.currentConversationId st) conversationId);
    cbn; repeat split; try (intros [|] body0 body'; reflexivity).
Qed.

(** The hook state a successful [deleteConversation] call ends in when
    other handlers run while it is suspended. *)
Lemma deleteConversation_disturbed (st : State.t) (conversationId : string)
  (others : State.t -> State.t) (body : Js.Completion Js.Value) :
  after (fun context =>
           ChatContextType.deleteConversation context conversationId
             (disturbed others (fun live => live) (inr (true, body)))) st
  = let left := others st in
    let remaining :=
      filter (fun conv =>
                negb (String.eqb (Conversation.id conv) conversationId))
             (State.conversations left) in
    if strictEq (State.currentConversationId st) conversationId
    then State.make [] remaining None (State.isLoading left)
    else State.make (State.messages left) remaining
                    (State.currentConversationId left) (State.isLoading left).
Proof.
  run_call. unfold disturbed. cbn.
  destruct (strictEq (State.currentConversationId st) conversationId);
    reflexivity.
Qed.

(** X7.  [deleteConversation] compares the id with the current
    conversation id of the render it was called from.  When that was
    another one, a successful delete keeps the message list and the
    pointer exactly as the other handlers left them while it was
    suspended -- also when they opened the very conversation being
    deleted, which then stays current although no cached entry has its id
    any more. *)
Theorem deleteConversation_keeps_pointer_set_meanwhile :
  forall (st : State.t) (conversationId : string)
         (others : State.t -> State.t) (body : Js.Completion Js.Value),
    State.currentConversationId st <> Some conversationId ->
    let st' :=
      after (fun context =>
               ChatContextType.deleteConversation context conversationId
                 (disturbed others (fun live => live) (inr (true, body)))) st in
    State.messages st' = State.messages (others st) /\
    State.currentConversationId st'
    = State.currentConversationId (others st) /\
    ~ In conversationId (List.map Conversation.id (State.conversations st')).
Proof.
  intros st conversationId others body Hother st'. subst st'.
  rewrite deleteConversation_disturbed. cbv zeta.
  destruct (strictEq (State.currentConversationId st) conversationId) eqn:E.
  - apply strictEq_true in E. contradiction.
  - cbn. repeat split. apply filter_none_left.
Qed.

Lemma deleteConversation_keeps_pointer_set_meanwhile_witness :
  let st := State.make [] sampleConversations None false in
  let opened (live : State.t) : State.t :=
    run (ChatProvider.loadConversation "c1"
           (undisturbed (inr (true, inr (historyJson []))))) live in
  State.currentConversationId st <> Some "c1" /\
  (let st' :=
     after (fun context =>
              ChatContextType.deleteConversation context "c1"
                (disturbed opened (fun live => live)
                           (inr (true, inr Js.Null)))) st in
   State.messages st' = [] /\
   State.currentConversationId st' = Some "c1" /\
   ~ In "c1" (List.map Conversation.id (State.conversations st'))).
Proof.
  cbv zeta.
  assert (H : State.currentConversationId
                (State.make [] sampleConversations None false) <> Some "c1")
    by discriminate.
  split; [exact H|].
  exact (deleteConversation_keeps_pointer_set_meanwhile
           (State.make [] sampleConversations None false) "c1"
           (fun live =>
              run (ChatProvider.loadConversation "c1"
                     (undisturbed (inr (true, inr (historyJson []))))) live)
           (inr Js.Null) H).
Defined.

(** X8.  When the render [deleteConversation] was called from had the
    deleted conversation current, a successful delete empties the message
    list and clears the pointer whatever the other handlers did while it
    was suspended -- also when they opened another conversation. *)
Theorem deleteConversation_resets_whatever_is_open :
  forall (st : State.t) (conversationId : string)
         (others : State.t -> State.t) (body : Js.Completion Js.Value),
    State.currentConversationId st = Some conversationId ->
    let st' :=
      after (fun context =>
               ChatContextType.deleteConversation context conversationId
                 (disturbed others (fun live => live) (inr (true, body)))) st in
    State.messages st' = [] /\
    State.currentConversationId st' = None /\
    State.isLoading st' = State.isLoading (others st).
Proof.
  intros st conversationId others body Hcurrent st'. subst st'.
  rewrite deleteConversation_disturbed. cbv zeta.
  apply strictEq_true in Hcurrent. rewrite Hcurrent. repeat split.
Qed.

Lemma deleteConversation_resets_whatever_is_open_witness :
  let st := State.make [] sampleConversations (Some "c1") false in
  let history :=
    [RemoteMessage.make (Js.Str "m1") (Js.Str "bearing noise") (Js.Str "user")
                        "2024-02-03T10:00:00Z"] in
  let opened (live : State.t) : State.t :=
    run (ChatProvider.loadConversation "c2"
           (undisturbed (inr (true, inr (historyJson history))))) live in
  State.currentConversationId st = Some "c1" /\
  State.currentConversationId (opened st) = Some "c2" /\
  (let st' :=
     after (fun context =>
              ChatContextType.deleteConversation context "c1"
                (disturbed opened (fun live => live)
                           (inr (true, inr Js.Null)))) st in
   State.messages st' = [] /\
   State.currentConversationId st' = None /\
   State.isLoading st' = false).
Proof.
  cbv zeta. split; [reflexivity|]. split; [reflexivity|].
  exact (deleteConversation_resets_whatever_is_open
           (State.make [] sampleConversations (Some "c1") false) "c1"
           (fun live =>
              run (ChatProvider.loadConversation "c2"
                     (undisturbed
                        (inr (true,
                              inr (historyJson
                                     [RemoteMessage.make
                                        (Js.Str "m1") (Js.Str "bearing noise")
                                        (Js.Str "user")
                                        "2024-02-03T10:00:00Z"]))))) live)
           (inr Js.Null) eq_refl).
Defined.

Lemma deleted_state (conversationId : string) (st : State.t) :
  deleted conversationId st
  = let remaining :=
      filter (fun conv =>
                negb (String.eqb (Conversation.id conv) conversationId))
             (State.conversations st) in
    if strictEq (State.currentConversationId st) conversationId
    then State.make [] remaining None (State.isLoading st)
    else State.make (State.messages st) remaining
                    (State.currentConversationId st) (State.isLoading st).
Proof.
  unfold deleted.
  change (after _ st)
    with (run (ChatProvider.deleteConversation st conversationId
                 (undisturbed (inr (true, inr Js.Null)))) st).
  rewrite deleteConversation_undisturbed. reflexivity.
Qed.

Lemma filter_swap {A : Type} (f g : A -> bool) (l : list A) :
  filter f (filter g l) = filter g (filter f l).
Proof.
  induction l as [|x rest IH]; [reflexivity|].
  cbn [filter]. destruct (f x) eqn:Hf, (g x) eqn:Hg; cbn [filter];
    rewrite ?Hf, ?Hg, IH; reflexivity.
Qed.

Lemma filter_twice {A : Type} (f : A -> bool) (l : list A) :
  filter f (filter f l) = filter f l.
Proof.
  induction l as [|x rest IH]; [reflexivity|].
  cbn [filter]. destruct (f x) eqn:Hf; cbn [filter]; rewrite ?Hf, IH;
    reflexivity.
Qed.

(** X9.  Successful deletes compose: deleting the same id a second time
    changes nothing, and deleting two ids in either order ends in the same
    hook state. *)
Theorem deleteConversation_idempotent_commutes :
  forall (st : State.t) (a b : string),
    deleted a (deleted a st) = deleted a st /\
    deleted a (deleted b st) = deleted b (deleted a st).
Proof.
  intros st a b. rewrite !deleted_state. cbv zeta. split.
  - destruct (strictEq (State.currentConversationId st) a) eqn:Ea; cbn.
    + now rewrite filter_twice.
    + rewrite Ea. now rewrite filter_twice.
  - destruct (strictEq (State.currentConversationId st) a) eqn:Ea,
             (strictEq (State.currentConversationId st) b) eqn:Eb;
      cbn; rewrite ?Ea, ?Eb;
      rewrite (filter_swap
                 (fun conv => negb (String.eqb (Conversation.id conv) a)));
      reflexivity.
Qed.

(* ------------------------------------------------------------------ *)
(** ** Further properties of addMessage                               *)
(* ------------------------------------------------------------------ *)

(** X10.  A sequence of [addMessage] calls appends one message per call,
    in call order, after the messages already there -- whatever the text,
    an empty one included -- and writes nothing else; running two
    sequences one after the other is running their concatenation. *)
Theorem addMessage_sequence :
  forall (calls more : list Append) (st : State.t),
    appendAll calls st
    = State.make (State.messages st ++ List.map appended calls)
                 (State.conversations st) (State.currentConversationId st)
                 (State.isLoading st) /\
    appendAll more (appendAll calls st) = appendAll (calls ++ more) st.
Proof.
  intros calls more st. split.
  - revert st. induction calls as [|call rest IH]; intros st.
    + cbn. rewrite app_nil_r. destruct st; reflexivity.
    + cbn [appendAll fold_left List.map].
      fold (appendAll rest (append st call)).
      rewrite IH, append_messages. cbn. now rewrite <- app_assoc.
  - unfold appendAll. now rewrite fold_left_app.
Qed.

(** X11.  The ids [addMessage] gives out are the decimal readings of
    [Date.now()]: the messages appended from the initial state have
    pairwise distinct ids exactly when the calls read pairwise distinct
    milliseconds. *)
Theorem addMessage_ids_distinct_iff :
  forall (calls : list Append),
    NoDup (List.map Message.id (State.messages (appendAll calls State.initial)))
    <-> NoDup (List.map now calls).
Proof.
  intros calls. rewrite appendAll_messages. cbn [State.initial State.messages app].
  rewrite map_map. split.
  - intros Hids.
    assert (E : List.map (fun call => Message.id (appended call)) calls
                = List.map (fun reading => Js.Str (Js.toString reading))
                           (List.map now calls))
      by (rewrite map_map; reflexivity).
    rewrite E in Hids. apply NoDup_map_inv in Hids. exact Hids.
  - apply appended_ids_distinct.
Qed.

(* ------------------------------------------------------------------ *)
(** ** The password reset page                                        *)
(* ------------------------------------------------------------------ *)

Module ResetPage.
Import ForgotPasswordPage.

Ltac run_submit :=
  unfold submit, handleSendReset, guarded, next, reading, axios_post,
    preventDefault, setLoading, setError, setSuccess, update, done, open,
    responseOf;
  cbn.

(** The form state a submission ends in, and how the handler completes. *)
Lemma submit_cases (f : Form) (reply : Js.Value + AxiosResponse) :
  let failed := Js.Str "Failed to send reset email. Please try again." in
  let ending (shownError : Js.Value) (shownSuccess : string) : Page :=
    {| form := make (email f) false shownError shownSuccess;
       defaultPrevented := true;
       posted :=
         [{| target := "http://localhost:8000/auth/send-password-reset-email";
             payload := Js.Obj [("email", Js.Str (email f))] |}];
       shown := [make (email f) true (Js.Str "") ""] |} in
  submit f reply
  = match reply with
    | inr response =>
        match Js.get (data response) "success" with
        | inl _ => (inr tt, ending failed "")
        | inr flag =>
            if truthy flag
            then (inr tt,
                  ending (Js.Str "")
                    "Password reset email sent! Please check your email for the reset link.")
            else (inr tt, ending (Js.Str "") "")
        end
    | inl Js.Undefined | inl Js.Null =>
        (inl (Native Js.TypeError), ending (Js.Str "") "")
    | inl thrown =>
        let detail :=
          optionalGet (optionalGet (optionalGet thrown "response") "data")
                      "detail" in
        (inr tt, ending (if truthy detail then detail else failed) "")
    end.
Proof.
  cbv zeta. run_submit.
  destruct reply as [thrown|[d]]; cbn.
  - destruct thrown as [| |b|n|s|items|props]; cbn; try reflexivity.
    destruct (Js.lookup "response" props) as [| |b|n|s|items|props'];
      cbn; try reflexivity.
    destruct (Js.lookup "data" props') as [| |b|n|s|items|props''];
      cbn; try reflexivity.
    destruct (truthy (Js.lookup "detail" props'')); reflexivity.
  - destruct (Js.get d "success") as [e|flag]; cbn; [reflexivity|].
    destruct (truthy flag); reflexivity.
Qed.

(** X12.  Whatever the reply, a submission prevents the form's default
    action, posts exactly one request, to the reset endpoint, carrying the
    e-mail of the render it was submitted from, shows the form disabled and
    with both banners cleared while the request is pending, and ends with
    the button enabled again and the e-mail field as it was. *)
Theorem handleSendReset_effects :
  forall (f : Form) (reply : Js.Value + AxiosResponse),
    let page := snd (submit f reply) in
    defaultPrevented page = true /\
    posted page
    = [{| target := "http://localhost:8000/auth/send-password-reset-email";
          payload := Js.Obj [("email", Js.Str (email f))] |}] /\
    shown page = [make (email f) true (Js.Str "") ""] /\
    Forall (fun pending => submitDisabled pending = true /\
                           errorBanner pending = false /\
                           successBanner pending = false) (shown page) /\
    submitDisabled (form page) = false /\
    email (form page) = email f.
Proof.
  intros f reply. cbv zeta. rewrite submit_cases. cbv zeta.
  destruct reply as [thrown|[d]]; cbn.
  - destruct thrown; cbn; repeat split; repeat constructor.
  - destruct (Js.get d "success") as [e|flag]; cbn;
      [|destruct (truthy flag); cbn]; repeat split; repeat constructor.
Qed.

(** X13.  When the request resolves, the handler completes normally: the
    success banner text is set exactly when [data.success] is truthy; with
    a falsy or absent flag neither banner is set; and when [data] is [null]
    the read throws inside the [try] block and the generic failure message
    is shown. *)
Theorem handleSendReset_resolved :
  forall (f : Form) (d : Js.Value),
    let result := submit f (inr {| data := d |}) in
    fst result = inr tt /\
    (error (form (snd result)), success (form (snd result)))
    = match d with
      | Js.Undefined | Js.Null =>
          (Js.Str "Failed to send reset email. Please try again.", "")
      | _ =>
          if truthy (optionalGet d "success")
          then (Js.Str "",
                "Password reset email sent! Please check your email for the reset link.")
          else (Js.Str "", "")
      end.
Proof.
  intros f d. cbv zeta. rewrite submit_cases. cbv zeta. cbn [data].
  destruct d as [| |b|n|s|items|props]; cbn; try (split; reflexivity).
  destruct (truthy (Js.lookup "success" props)); split; reflexivity.
Qed.


(** X15.  After a submission the page never shows both banners, and what
    it shows owes nothing to the banners of earlier submissions: the
    outcome is the one of submitting a fresh form with the same e-mail. *)
Theorem handleSendReset_banners :
  forall (f : Form) (reply : Js.Value + AxiosResponse),
    let page := snd (submit f reply) in
    errorBanner (form page) && successBanner (form page) = false /\
    submit f reply = submit (make (email f) false (Js.Str "") "") reply.
Proof.
  intros f reply. cbv zeta. split.
  - rewrite submit_cases. cbv zeta.
    destruct reply as [thrown|[d]]; cbn.
    + destruct thrown; cbn; unfold errorBanner, successBanner; cbn;
        try reflexivity; apply andb_false_r.
    + destruct (Js.get d "success") as [e|flag]; cbn;
        [|destruct (truthy flag); cbn]; reflexivity.
  - rewrite !submit_cases. reflexivity.
Qed.

End ResetPage.

(* ------------------------------------------------------------------ *)
(** ** Sequences of calls                                             *)
(* ------------------------------------------------------------------ *)

(** What one call does to each cell of the hook state. *)
Lemma step_cases (st : State.t) (c : Call) :
  step st c
  = match c with
    | AddMessage call =>
        State.make (State.messages st ++ [appended call])
                   (State.conversations st) (State.currentConversationId st)
                   (State.isLoading st)
    | ClearMessages | CreateNewConversation =>
        State.make [] (State.conversations st) None (State.isLoading st)
    | LoadConversation conversationId (inr (true, inr history)) =>
        match remapHistory history with
        | inr loadedMessages =>
            State.make loadedMessages (State.conversations st)
                       (Some conversationId) false
        | inl _ =>
            State.make (State.messages st) (State.conversations st)
                       (State.currentConversationId st) false
        end
    | LoadConversation _ _ =>
        State.make (State.messages st) (State.conversations st)
                   (State.currentConversationId st) false
    | LoadAgentConversations _ (inr (true, inr agentConversations)) =>
        State.make (State.messages st) agentConversations
                   (State.currentConversationId st) (State.isLoading st)
    | LoadAgentConversations _ _ => st
    | DeleteConversation conversationId (inr (true, _)) =>
        let remaining :=
          filter (fun conv =>
                    negb (String.eqb (Conversation.id conv) conversationId))
                 (State.conversations st) in
        if strictEq (State.currentConversationId st) conversationId
        then State.make [] remaining None (State.isLoading st)
        else State.make (State.messages st) remaining
                        (State.currentConversationId st) (State.isLoading st)
    | DeleteConversation _ _ => st
    | SetIsLoading loading =>
        State.make (State.messages st) (State.conversations st)
                   (State.currentConversationId st) loading
    end.
Proof.
  unfold step.
  destruct c as [call| | |conversationId outcome|agentName outcome
                |conversationId outcome|loading]; unfold invoke.
  - reflexivity.
  - reflexivity.
  - reflexivity.
  - rewrite loadConversation_undisturbed.
    destruct outcome as [e|[[|] [e|history]]]; reflexivity.
  - run_call. destruct outcome as [e|[[|] [e|returned]]]; reflexivity.
  - change (after _ st)
      with (run (ChatProvider.deleteConversation st conversationId
                   (undisturbed outcome)) st).
    rewrite deleteConversation_undisturbed.
    destruct outcome as [e|[[|] body]]; reflexivity.
  - reflexivity.
Qed.

Lemma NoDup_ids_filter (keep : Conversation.t -> bool)
  (l : list Conversation.t) :
  NoDup (List.map Conversation.id l) ->
  NoDup (List.map Conversation.id (filter keep l)).
Proof.
  induction l as [|conv rest IH]; intros Hnd; [exact Hnd|].
  cbn [List.map] in Hnd. inversion Hnd as [|x xs Hfresh Hnd']; subst.
  cbn [filter]. destruct (keep conv); [|now apply IH].
  cbn [List.map]. constructor; [|now apply IH].
  intros Hin. apply Hfresh. apply in_map_iff in Hin.
  destruct Hin as (other & Hid & Hin). apply filter_In in Hin.
  apply in_map_iff. exists other. split; [exact Hid|apply Hin].
Qed.

(** X16.  The cached conversation list keeps its ids unique through any
    sequence of calls, provided every list the remote store returns has
    unique ids: no operation duplicates an entry. *)
Theorem session_keeps_ids_unique :
  forall (calls : list Call) (st : State.t),
    Forall listsOnce calls ->
    NoDup (List.map Conversation.id (State.conversations st)) ->
    NoDup (List.map Conversation.id (State.conversations (session calls st))).
Proof.
  induction calls as [|c rest IH]; intros st Hserved Hunique.
  - exact Hunique.
  - inversion Hserved as [|c' rest' Hc Hrest]; subst.
    cbn [session fold_left]. fold (session rest (step st c)).
    apply IH; [exact Hrest|].
    rewrite step_cases.
    destruct c as [call| | |conversationId outcome|agentName outcome
                  |conversationId outcome|loading]; cbn [State.conversations];
      try exact Hunique.
    + destruct outcome as [e|[[|] [e|history]]]; try exact Hunique.
      destruct (remapHistory history); exact Hunique.
    + destruct outcome as [e|[[|] [e|returned]]]; try exact Hunique.
      exact Hc.
    + destruct outcome as [e|[[|] body]]; try exact Hunique.
      cbv zeta.
      destruct (strictEq (State.currentConversationId st) conversationId);
        cbn [State.conversations]; now apply NoDup_ids_filter.
Qed.

Lemma session_keeps_ids_unique_witness :
  let st := State.make [] sampleConversations (Some "c1") false in
  let calls :=
    [DeleteConversation "c1" (inr (true, inr Js.Null));
     LoadAgentConversations "mech" (inr (true, inr sampleConversations));
     LoadConversation "c2" (inl Js.NetworkError);
     DeleteConversation "c2" (inr (true, inr Js.Null))] in
  Forall listsOnce calls /\
  NoDup (List.map Conversation.id (State.conversations st)) /\
  NoDup (List.map Conversation.id (State.conversations (session calls st))).
Proof.
  cbv zeta.
  assert (Hsample : NoDup (List.map Conversation.id sampleConversations)).
  { cbn. repeat constructor; cbn; intuition discriminate. }
  assert (Hserved :
    Forall listsOnce
      [DeleteConversation "c1" (inr (true, inr Js.Null));
       LoadAgentConversations "mech" (inr (true, inr sampleConversations));
       LoadConversation "c2" (inl Js.NetworkError);
       DeleteConversation "c2" (inr (true, inr Js.Null))]).
  { constructor; [exact I|]. constructor; [exact Hsample|].
    constructor; [exact I|]. constructor; [exact I|]. constructor. }
  split; [exact Hserved|]. split; [exact Hsample|].
  exact (session_keeps_ids_unique _
           (State.make [] sampleConversations (Some "c1") false)
           Hserved Hsample).
Defined.

(** X17.  The store never leaves the loading flag on by itself: from a
    state with the flag off, after any sequence of completed calls in
    which the consumer does not raise the flag through the exposed setter,
    the flag is off. *)
Theorem session_leaves_flag_off :
  forall (calls : list Call) (st : State.t),
    Forall notRaising calls ->
    State.isLoading st = false ->
    State.isLoading (session calls st) = false.
Proof.
  induction calls as [|c rest IH]; intros st Hcalls Hoff.
  - exact Hoff.
  - inversion Hcalls as [|c' rest' Hc Hrest]; subst.
    cbn [session fold_left]. fold (session rest (step st c)).
    apply IH; [exact Hrest|].
    rewrite step_cases.
    destruct c as [call| | |conversationId outcome|agentName outcome
                  |conversationId outcome|loading]; cbn [State.isLoading];
      try exact Hoff.
    + destruct outcome as [e|[[|] [e|history]]]; try reflexivity.
      destruct (remapHistory history); reflexivity.
    + destruct outcome as [e|[[|] [e|returned]]]; exact Hoff.
    + destruct outcome as [e|[[|] body]]; try exact Hoff.
      cbv zeta.
      destruct (strictEq (State.currentConversationId st) conversationId);
        exact Hoff.
    + destruct loading; [destruct Hc|reflexivity].
Qed.

Lemma session_leaves_flag_off_witness :
  let calls :=
    [LoadConversation "c1" (inl Js.NetworkError);
     AddMessage {| now := 1700000000000; today := 1700000000001;
                   text := ""; sender := user |};
     LoadConversation "c2" (inr (false, inl Js.SyntaxError));
     SetIsLoading false] in
  Forall notRaising calls /\
  State.isLoading State.initial = false /\
  State.isLoading (session calls State.initial) = false.
Proof.
  cbv zeta.
  assert (Hcalls :
    Forall notRaising
      [LoadConversation "c1" (inl Js.NetworkError);
       AddMessage {| now := 1700000000000; today := 1700000000001;
                     text := ""; sender := user |};
       LoadConversation "c2" (inr (false, inl Js.SyntaxError));
       SetIsLoading false]).
  { repeat constructor. }
  split; [exact Hcalls|]. split; [reflexivity|].
  exact (session_leaves_flag_off _ State.initial Hcalls eq_refl).
Defined.

(** X18.  The current conversation id is only ever an id the consumer
    asked [loadConversation] for: if after a sequence of calls it is [id],
    then it was [id] at the start or one of the calls was a
    [loadConversation(id)].  Appending messages never gives the
    conversation an id. *)
Theorem session_pointer_comes_from_load :
  forall (calls : list Call) (st : State.t) (conversationId : string),
    State.currentConversationId (session calls st) = Some conversationId ->
    State.currentConversationId st = Some conversationId \/
    exists outcome, In (LoadConversation conversationId outcome) calls.
Proof.
  induction calls as [|c rest IH]; intros st conversationId Hfinal.
  - left. exact Hfinal.
  - cbn [session fold_left] in Hfinal. fold (session rest (step st c)) in Hfinal.
    destruct (IH _ _ Hfinal) as [Hstep|[outcome Hin]].
    + rewrite step_cases in Hstep.
      destruct c as [call| | |loaded outcome|agentName outcome
                    |removed outcome|loading];
        cbn [State.currentConversationId] in Hstep;
        try (left; exact Hstep); try discriminate Hstep.
      * destruct outcome as [e|[[|] [e|history]]];
          try (left; exact Hstep).
        destruct (remapHistory history); [left; exact Hstep|].
        cbn in Hstep. injection Hstep as ->.
        right. eexists. left. reflexivity.
      * destruct outcome as [e|[[|] [e|returned]]]; left; exact Hstep.
      * destruct outcome as [e|[[|] body]]; try (left; exact Hstep).
        cbv zeta in Hstep.
        destruct (strictEq (State.currentConversationId st) removed);
          [discriminate Hstep|left; exact Hstep].
    + right. exists outcome. right. exact Hin.
Qed.

Lemma session_pointer_comes_from_load_witness :
  let calls :=
    [AddMessage {| now := 1700000000000; today := 1700000000001;
                   text := "hello"; sender := user |};
     LoadConversation "c2" (inr (true, inr (historyJson [])));
     DeleteConversation "c1" (inr (true, inr Js.Null))] in
  State.currentConversationId (session calls State.initial) = Some "c2" /\
  (State.currentConversationId State.initial = Some "c2" \/
   exists outcome, In (LoadConversation "c2" outcome) calls).
Proof.
  cbv zeta. split; [reflexivity|].
  exact (session_pointer_comes_from_load
           [AddMessage {| now := 1700000000000; today := 1700000000001;
                          text := "hello"; sender := user |};
            LoadConversation "c2" (inr (true, inr (historyJson [])));
            DeleteConversation "c1" (inr (true, inr Js.Null))]
           State.initial "c2" eq_refl).
Defined.
